(** * Closeness vitality (nx_parallel/algorithms/vitality.py)

    A shallow embedding of [closeness_vitality] together with the part of
    its runtime that the function touches: Python numbers with the two
    infinities and NaN, exceptions, the graph object owned by the caller,
    [networkx]'s subgraph views and Wiener index, [os.cpu_count] and
    [joblib.Parallel].

    [networkx], [joblib] and [os] are third-party libraries, not part of
    the repository: the functions called from lines 62-78 are modelled
    after their documented behaviour, in modules of their own.

    Scope of the model.  Nodes are natural numbers.  Edge weights are
    natural numbers and finite distance sums are exact integers, so
    rounding of floating point sums is outside the model; the special
    values [inf], [-inf] and [nan] and their subtraction rules are
    modelled.  [os.cpu_count()] is taken to return a positive count.

    Python computes line 70 in floating point.  The model's finite
    numbers agree with it on integers that floats represent exactly
    ([float_integer] below); the oracle's [OverflowError] on
    totals beyond the float range and its [ValueError] on negative
    weights are not modelled, so statements about which calls succeed
    are limited to the null-graph error. *)

From stdpp Require Import base gmap sets list strings.

Local Open Scope Z_scope.

(** ** Python numbers and exceptions *)

Inductive num : Type :=
  | Fin (z : Z)
  | PInf
  | NInf
  | NaN.

#[global] Instance num_eq_dec : EqDecision num.
Proof. solve_decision. Defined.

(** Subtraction [a - b] on Python numbers (IEEE rules for the special
    values). *)
Definition num_sub (a b : num) : num :=
  match a, b with
  | NaN, _ | _, NaN => NaN
  | Fin x, Fin y => Fin (x - y)
  | Fin _, PInf => NInf
  | Fin _, NInf => PInf
  | PInf, PInf => NaN
  | PInf, _ => PInf
  | NInf, NInf => NaN
  | NInf, _ => NInf
  end.

Definition is_finite (a : num) : bool :=
  match a with Fin _ => true | _ => false end.

Inductive exn : Type :=
  | NetworkXPointlessConcept   (* connectivity of the null graph *)
  | ValueError                 (* joblib: n_jobs == 0 has no meaning *)
  | Stuck.                     (* model only: no run of the program gets here *)

#[global] Instance exn_eq_dec : EqDecision exn.
Proof. solve_decision. Defined.

Inductive res (A : Type) : Type :=
  | Ok (a : A)
  | Raise (e : exn).
Arguments Ok {A} a.
Arguments Raise {A} e.

#[global] Instance res_ret : MRet res := λ A a, Ok a.
#[global] Instance res_bind : MBind res := λ A B f r,
  match r with Ok a => f a | Raise e => Raise e end.
#[global] Instance res_fmap : FMap res := λ A B f r,
  match r with Ok a => Ok (f a) | Raise e => Raise e end.

(** ** Graphs

    A graph value: its kind, its nodes in insertion order, and its edges
    with their attribute dictionaries. *)

Record Graph : Type := mkGraph {
  directed : bool;
  nodes : list nat;
  edges : list (nat * nat * gmap string N)
}.


Module GraphModel.

(** [data.get(weight, 1)]; unit weight when no attribute is selected. *)
Definition edge_weight (weight : option string) (data : gmap string N) : N :=
  match weight with
  | None => 1%N
  | Some k => default 1%N (data !! k)
  end.

Definition arcs (g : Graph) (weight : option string) : list (nat * nat * N) :=
  flat_map (λ e,
    let c := edge_weight weight e.2 in
    if directed g then [(e.1.1, e.1.2, c)]
    else [(e.1.1, e.1.2, c); (e.1.2, e.1.1, c)]) (edges g).

Definition relax_arc (dist : gmap nat N) (a : nat * nat * N) : gmap nat N :=
  match dist !! a.1.1 with
  | None => dist
  | Some du =>
      let d := (du + a.2)%N in
      match dist !! a.1.2 with
      | Some dv => if (d <? dv)%N then <[a.1.2 := d]> dist else dist
      | None => <[a.1.2 := d]> dist
      end
  end.

(** Distances from [s] to every node reachable from it. *)
Definition shortest_path_length (g : Graph) (weight : option string)
    (s : nat) : gmap nat N :=
  Nat.iter (length (nodes g))
    (λ dist, foldl relax_arc dist (arcs g weight)) {[ s := 0%N ]}.

(** [nx.is_connected] / [nx.is_strongly_connected]: every node reaches
    every node; undefined (an exception) on the null graph. *)
Definition is_connected (g : Graph) : res bool :=
  match nodes g with
  | [] => Raise NetworkXPointlessConcept
  | _ =>
      Ok (forallb (λ s,
            forallb (λ t,
              bool_decide (is_Some (shortest_path_length g None s !! t)))
              (nodes g)) (nodes g))
  end.

Definition total_length (g : Graph) (weight : option string) : N :=
  foldr (λ s acc,
    (map_fold (λ _ d tot, d + tot) 0 (shortest_path_length g weight s) + acc)%N)
    0%N (nodes g).

(** [nx.wiener_index(G, weight)] on a graph value. *)
Definition wiener_index (g : Graph) (weight : option string) : res num :=
  connected ← is_connected g;
  if negb connected then mret PInf
  else
    let total := Z.of_N (total_length g weight) in
    mret (Fin (if directed g then total else total / 2)).

(** The induced subgraph on the nodes of [g] that belong to [keep]. *)
Definition subgraph (g : Graph) (keep : gset nat) : Graph :=
  {| directed := directed g;
     nodes := filter (λ v, v ∈ keep) (nodes g);
     edges := filter (λ e, e.1.1 ∈ keep ∧ e.1.2 ∈ keep) (edges g) |}.

End GraphModel.

(** ** The runtime: store, trace and the computation monad *)

(** Graph objects a program can hold: the caller's stored graph, or a
    subgraph view, which keeps a reference to its parent and a node
    filter and copies nothing. *)
Inductive gref : Type :=
  | Stored
  | SubgraphView (parent : gref) (keep : gset nat).

#[global] Instance gref_eq_dec : EqDecision gref.
Proof. solve_decision. Defined.

Fixpoint deref (r : gref) (g : Graph) : Graph :=
  match r with
  | Stored => g
  | SubgraphView parent keep => GraphModel.subgraph (deref parent g) keep
  end.

(** What a caller may pass as [G]: a graph object, or a wrapper exposing
    one through its [graph_object] attribute. *)
Inductive pyobj : Type :=
  | Bare (r : gref)
  | Wrapped (graph_object : gref).

Inductive event : Type :=
  | EvWienerIndex (G : gref) (weight : option string)
  | EvCpuCount
  | EvParallel (n_jobs : Z).

#[global] Instance event_eq_dec : EqDecision event.
Proof. solve_decision. Defined.

(** The world: the caller's graph, the host's CPU count, and the calls
    made to the collaborators so far, newest first. *)
Record world : Type := World {
  w_graph : Graph;
  w_cpus : positive;
  w_trace : list event
}.

Definition M (A : Type) : Type := world → res A * world.

#[global] Instance M_ret : MRet M := λ A a σ, (Ok a, σ).
#[global] Instance M_bind : MBind M := λ A B f m σ,
  match m σ with
  | (Ok a, σ') => f a σ'
  | (Raise e, σ') => (Raise e, σ')
  end.

Definition raise {A} (e : exn) : M A := λ σ, (Raise e, σ).
Definition lift {A} (r : res A) : M A := λ σ, (r, σ).
Definition log (e : event) : M unit :=
  λ σ, (Ok (), World (w_graph σ) (w_cpus σ) (e :: w_trace σ)).
Definition read_cpus : M Z := λ σ, (Ok (Z.pos (w_cpus σ)), σ).
Definition read_graph (G : gref) : M Graph :=
  λ σ, (Ok (deref G (w_graph σ)), σ).

(** [dict(pairs)]: later pairs overwrite earlier ones. *)
Definition dict {V} (pairs : list (nat * V)) : gmap nat V :=
  foldl (λ m kv, <[kv.1 := kv.2]> m) ∅ pairs.

Module nx.
(** [nx.wiener_index(G, weight=weight)] *)
Definition wiener_index (G : gref) (weight : option string) : M num :=
  _ ← log (EvWienerIndex G weight);
  g ← read_graph G;
  lift (GraphModel.wiener_index g weight).

(** [set(G)] *)
Definition set (G : gref) : M (gset nat) :=
  g ← read_graph G; mret (list_to_set (nodes g)).

(** [iter(G)], materialised *)
Definition iter (G : gref) : M (list nat) :=
  g ← read_graph G; mret (nodes g).

(** [G.subgraph(keep)]: a view, nothing is copied or changed. *)
Definition subgraph (G : gref) (keep : gset nat) : M gref :=
  mret (SubgraphView G keep).

(** [G.remove_node(v)] changes the stored graph in place.  The function
    under study never calls it; it is here to contrast with views. *)
Definition remove_node (v : nat) : M unit :=
  λ σ, (Ok (), World (GraphModel.subgraph (w_graph σ)
                        (list_to_set (nodes (w_graph σ)) ∖ {[v]}))
                     (w_cpus σ) (w_trace σ)).
End nx.

Module os.
(** [os.cpu_count()] *)
Definition cpu_count : M Z :=
  _ ← log EvCpuCount; read_cpus.
End os.

Module joblib.
(** [Parallel(n_jobs=n_jobs)(tasks)].  Every joblib backend rejects
    [n_jobs == 0] with [ValueError] ("n_jobs == 0 in Parallel has no
    meaning") before any task is dispatched; for any other value every
    task is run and the results come back in task order, the first
    failure being propagated.  How many workers a nonzero [n_jobs] buys
    does not show in the results. *)
Definition Parallel {B} (n_jobs : Z) (tasks : list (M B)) : M (list B) :=
  _ ← log (EvParallel n_jobs);
  if decide (n_jobs = 0) then raise ValueError
  else mapM (λ t, t) tasks.
End joblib.

(** ** The function *)

Inductive value : Type :=
  | Scalar (x : num)
  | Mapping (m : gmap nat num).

#[global] Instance value_eq_dec : EqDecision value.
Proof. solve_decision. Defined.

(** [G.graph_object if hasattr(G, "graph_object") else G] *)
Definition unwrap (G : pyobj) : gref :=
  match G with
  | Wrapped graph_object => graph_object
  | Bare r => r
  end.

(** [delayed(lambda v: (v, vitality(v)))(v)]: one task of the fan-out.
    A call with [node] given yields a scalar. *)
Definition task (vitality : nat → M value) (v : nat) : M (nat * num) :=
  r ← vitality v;
  match r with
  | Scalar x => mret (v, x)
  | Mapping _ => raise Stuck
  end.

(** [closeness_vitality(G, node=None, weight=None, wiener_index=None,
    n_jobs=-1)], lines 9-78; the defaults are written out at each call.
    The function calls itself once per node from the fan-out (through
    [partial], line 76, which leaves [n_jobs] at its default), so the
    embedding recurses on a call depth. *)
Fixpoint closeness_vitality_depth (depth : nat) (G : pyobj) (node : option nat)
    (weight : option string) (wiener_index : option num) (n_jobs : Z)
    : M value :=
  match depth with
  | O => raise Stuck
  | S depth =>
      (* lines 62-63 *)
      let G := unwrap G in
      (* lines 65-66 *)
      wiener_index ←
        match wiener_index with
        | None => nx.wiener_index G weight
        | Some b => mret b
        end;
      match node with
      | Some node =>
          (* lines 68-70 *)
          nodes_G ← nx.set G;
          H ← nx.subgraph G (nodes_G ∖ {[node]});
          after ← nx.wiener_index H weight;
          mret (Scalar (num_sub wiener_index after))
      | None =>
          (* lines 72-74 *)
          n_cpus ← os.cpu_count;
          let n_jobs := if decide (Z.abs n_jobs > n_cpus) then n_cpus else n_jobs in
          (* lines 76-78 *)
          let vitality := λ v,
            closeness_vitality_depth depth (Bare G) (Some v) weight
              (Some wiener_index) (-1) in
          vs ← nx.iter G;
          result ← joblib.Parallel n_jobs (map (task vitality) vs);
          mret (Mapping (dict result))
      end
  end.

Arguments closeness_vitality_depth : simpl never.

Definition closeness_vitality := closeness_vitality_depth 2.

(** ** Notions used to state the properties *)

(** The graph the argument [G] stands for in a world. *)
Definition graph_of (G : pyobj) (σ : world) : Graph :=
  deref (unwrap G) (w_graph σ).

(** The node set handed to [G.subgraph] on line 69, and the graph seen
    through the resulting view. *)
Definition others (g : Graph) (v : nat) : gset nat :=
  list_to_set (nodes g) ∖ {[v]}.

Definition remaining (g : Graph) (v : nat) : Graph :=
  GraphModel.subgraph g (others g v).

(** The parallelism value handed to the executor (lines 72-74). *)
Definition resolved_n_jobs (n_cpus : positive) (n_jobs : Z) : Z :=
  if decide (Z.abs n_jobs > Z.pos n_cpus) then Z.pos n_cpus else n_jobs.

(** The baseline in force during a call. *)
Definition baseline_of (g : Graph) (weight : option string)
    (wiener_index : option num) : res num :=
  match wiener_index with
  | Some b => Ok b
  | None => GraphModel.wiener_index g weight
  end.

(** Vitality-of-One and Vitality-of-All as pure functions of the graph. *)
Definition vitality_of_one (g : Graph) (weight : option string) (b : num)
    (v : nat) : res num :=
  after ← GraphModel.wiener_index (remaining g v) weight;
  mret (num_sub b after).

Definition vitality_of_all (g : Graph) (weight : option string) (b : num)
    : res (gmap nat num) :=
  result ← mapM (λ v, x ← vitality_of_one g weight b v; mret (v, x)) (nodes g);
  mret (dict result).

(** Readings of a trace. *)
Definition parallel_requests (tr : list event) : list Z :=
  omap (λ e, match e with EvParallel n => Some n | _ => None end) tr.

Definition is_executor_event (e : event) : bool :=
  match e with
  | EvCpuCount | EvParallel _ => true
  | EvWienerIndex _ _ => false
  end.

Definition executor_events (tr : list event) : list event :=
  filter (λ e, is_executor_event e = true) tr.

Definition count_calls (e : event) (tr : list event) : nat :=
  length (filter (λ x, x = e) tr).

Definition add_trace (tr : list event) (σ : world) : world :=
  World (w_graph σ) (w_cpus σ) (tr ++ w_trace σ).

(** An oracle call on some subgraph view of [r]. *)
Definition view_event (r : gref) (e : event) : Prop :=
  ∃ keep w, e = EvWienerIndex (SubgraphView r keep) w.

(** The calls made before the fan-out starts, newest first. *)
Definition prologue (r : gref) (w : option string) (wi : option num)
    (base : res num) (n_jobs : Z) : list event :=
  let baseline_call := if wi is None then [EvWienerIndex r w] else [] in
  match base with
  | Ok _ => EvParallel n_jobs :: EvCpuCount :: baseline_call
  | Raise _ => baseline_call
  end.

(** The result of a call without [node], as a function of the graph. *)
Definition all_nodes_result (g : Graph) (n_cpus : positive)
    (w : option string) (wi : option num) (n_jobs : Z) : res value :=
  b ← baseline_of g w wi;
  if decide (resolved_n_jobs n_cpus n_jobs = 0) then Raise ValueError
  else Mapping <$> vitality_of_all g w b.

(** The oracle calls made by the fan-out over [vs], newest first; the
    fan-out stops at the first task that fails. *)
Fixpoint fanout_calls (r : gref) (g : Graph) (w : option string) (b : num)
    (vs : list nat) : list event :=
  match vs with
  | [] => []
  | v :: vs =>
      let call := EvWienerIndex (SubgraphView r (others g v)) w in
      match vitality_of_one g w b v with
      | Ok _ => fanout_calls r g w b vs ++ [call]
      | Raise _ => [call]
      end
  end.

(** All calls made by a call without [node], newest first. *)
Definition all_nodes_calls (r : gref) (g : Graph) (n_cpus : positive)
    (w : option string) (wi : option num) (n_jobs : Z) : list event :=
  let n' := resolved_n_jobs n_cpus n_jobs in
  match baseline_of g w wi with
  | Ok b =>
      (if decide (n' = 0) then [] else fanout_calls r g w b (nodes g))
      ++ prologue r w wi (Ok b) n'
  | Raise e => prologue r w wi (Raise e) n'
  end.

(** The value of a result known to be a success. *)
Definition value_or_nan (r : res num) : num :=
  match r with Ok x => x | Raise _ => NaN end.

(** The weight selectors of the oracle calls of a trace, and their
    number. *)
Definition oracle_weights (tr : list event) : list (option string) :=
  omap (λ e, match e with EvWienerIndex _ w => Some w | _ => None end) tr.

Definition oracle_calls (tr : list event) : nat := length (oracle_weights tr).

(** The empty graph. *)
Definition null_graph : Graph := mkGraph false [] [].



(** ** Example graphs *)

Definition unit_edge (u v : nat) : nat * nat * gmap string N := (u, v, ∅).

Definition weighted_edge (u v : nat) (c : N) : nat * nat * gmap string N :=
  (u, v, {[ "weight" := c ]}).

(** The cycle 0-1-2-3-0. *)
Definition cycle4 : Graph :=
  mkGraph false [0; 1; 2; 3]%nat
    [unit_edge 0 1; unit_edge 1 2; unit_edge 2 3; unit_edge 3 0].

(** A star with center 0 and leaves 1, 2, 3. *)
Definition star3 : Graph :=
  mkGraph false [0; 1; 2; 3]%nat [unit_edge 0 1; unit_edge 0 2; unit_edge 0 3].

(** Two nodes joined by an edge of weight 5. *)
Definition pair5 : Graph :=
  mkGraph false [0; 1]%nat [weighted_edge 0 1 5].

(** A single node. *)
Definition single : Graph := mkGraph false [0%nat] [].

(** The path 0-1-2 next to an isolated node 3. *)
Definition path3_plus_isolated : Graph :=
  mkGraph false [0; 1; 2; 3]%nat [unit_edge 0 1; unit_edge 1 2].

Definition host (g : Graph) : world := World g 4 [].

(** * Properties *)

(** ** Running the primitives *)

Lemma bind_run {A B} (m : M A) (f : A → M B) (σ : world) :
  (m ≫= f) σ =
    match m σ with
    | (Ok a, σ') => f a σ'
    | (Raise e, σ') => (Raise e, σ')
    end.
Proof. reflexivity. Qed.

Lemma ret_run {A} (a : A) (σ : world) : (mret a : M A) σ = (Ok a, σ).
Proof. reflexivity. Qed.

Lemma add_trace_app (t1 t2 : list event) (σ : world) :
  add_trace t1 (add_trace t2 σ) = add_trace (t1 ++ t2) σ.
Proof. unfold add_trace; simpl. by rewrite app_assoc. Qed.

Lemma add_trace_nil (σ : world) : add_trace [] σ = σ.
Proof. by destruct σ. Qed.

Lemma nx_wiener_index_run (r : gref) (w : option string) (σ : world) :
  nx.wiener_index r w σ =
    (GraphModel.wiener_index (deref r (w_graph σ)) w,
     add_trace [EvWienerIndex r w] σ).
Proof. reflexivity. Qed.

Lemma nx_set_run (r : gref) (σ : world) :
  nx.set r σ = (Ok (list_to_set (nodes (deref r (w_graph σ)))), σ).
Proof. reflexivity. Qed.

Lemma nx_iter_run (r : gref) (σ : world) :
  nx.iter r σ = (Ok (nodes (deref r (w_graph σ))), σ).
Proof. reflexivity. Qed.

Lemma nx_subgraph_run (r : gref) (keep : gset nat) (σ : world) :
  nx.subgraph r keep σ = (Ok (SubgraphView r keep), σ).
Proof. reflexivity. Qed.

Lemma os_cpu_count_run (σ : world) :
  os.cpu_count σ = (Ok (Z.pos (w_cpus σ)), add_trace [EvCpuCount] σ).
Proof. reflexivity. Qed.

Lemma Parallel_run {B} (n_jobs : Z) (tasks : list (M B)) (σ : world) :
  joblib.Parallel n_jobs tasks σ =
    if decide (n_jobs = 0) then (Raise ValueError, add_trace [EvParallel n_jobs] σ)
    else mapM (λ t, t) tasks (add_trace [EvParallel n_jobs] σ).
Proof.
  unfold joblib.Parallel. rewrite bind_run. simpl. by destruct (decide _).
Qed.

Ltac run :=
  repeat first
    [ rewrite bind_run | rewrite ret_run | rewrite nx_wiener_index_run
    | rewrite nx_set_run | rewrite nx_iter_run | rewrite nx_subgraph_run
    | rewrite os_cpu_count_run | rewrite !add_trace_app; simpl app ].

(** The body of the function, one call deep. *)
Lemma closeness_vitality_depth_eq (k : nat) (G : pyobj) (node : option nat)
    (w : option string) (wi : option num) (n : Z) :
  closeness_vitality_depth (S k) G node w wi n =
    (wiener_index ←
        match wi with
        | None => nx.wiener_index (unwrap G) w
        | Some b => mret b
        end;
     match node with
     | Some node =>
         nodes_G ← nx.set (unwrap G);
         H ← nx.subgraph (unwrap G) (nodes_G ∖ {[node]});
         after ← nx.wiener_index H w;
         mret (Scalar (num_sub wiener_index after))
     | None =>
         n_cpus ← os.cpu_count;
         let n_jobs := if decide (Z.abs n > n_cpus) then n_cpus else n in
         vs ← nx.iter (unwrap G);
         result ← joblib.Parallel n_jobs (map (task (λ v,
           closeness_vitality_depth k (Bare (unwrap G)) (Some v) w
             (Some wiener_index) (-1))) vs);
         mret (Mapping (dict result))
     end).
Proof. reflexivity. Qed.

(** A call with [node] given: one oracle call on the view, preceded by
    the baseline call when no baseline was supplied. *)
Lemma single_run (k : nat) (G : pyobj) (v : nat) (w : option string)
    (wi : option num) (n : Z) (σ : world) :
  let g := graph_of G σ in
  let view := EvWienerIndex (SubgraphView (unwrap G) (others g v)) w in
  closeness_vitality_depth (S k) G (Some v) w wi n σ =
    match wi with
    | Some b => (Scalar <$> vitality_of_one g w b v, add_trace [view] σ)
    | None =>
        match GraphModel.wiener_index g w with
        | Ok b =>
            (Scalar <$> vitality_of_one g w b v,
             add_trace [view; EvWienerIndex (unwrap G) w] σ)
        | Raise e => (Raise e, add_trace [EvWienerIndex (unwrap G) w] σ)
        end
    end.
Proof.
  intros g view. subst g view.
  unfold graph_of, vitality_of_one, remaining, others.
  rewrite closeness_vitality_depth_eq.
  destruct wi as [b|].
  - run. simpl. by destruct (GraphModel.wiener_index _ _).
  - run. destruct (GraphModel.wiener_index (deref (unwrap G) (w_graph σ)) w) as [b|e]; [|done].
    run. simpl.
    by destruct (GraphModel.wiener_index _ _).
Qed.

(** One task of the fan-out. *)
Lemma task_run (k : nat) (r : gref) (w : option string) (b : num) (v : nat)
    (σ : world) :
  let g := deref r (w_graph σ) in
  task (λ v, closeness_vitality_depth (S k) (Bare r) (Some v) w (Some b) (-1))
    v σ =
  (x ← vitality_of_one g w b v; mret (v, x),
   add_trace [EvWienerIndex (SubgraphView r (others g v)) w] σ).
Proof.
  intros g. unfold task. rewrite bind_run, single_run.
  unfold graph_of. simpl unwrap.
  fold g. by destruct (vitality_of_one g w b v).
Qed.

Lemma mapM_cons_run {A B} (f : A → M B) (x : A) (l : list A) :
  mapM f (x :: l) = (y ← f x; ys ← mapM f l; mret (y :: ys)).
Proof. reflexivity. Qed.

(** The tasks of the fan-out, run one after the other. *)
Lemma tasks_run (k : nat) (r : gref) (w : option string) (b : num)
    (vs : list nat) (σ : world) :
  let g := deref r (w_graph σ) in
  mapM (λ t : M (nat * num), t)
    (map (task (λ v,
       closeness_vitality_depth (S k) (Bare r) (Some v) w (Some b) (-1))) vs) σ =
  (mapM (λ v, x ← vitality_of_one g w b v; mret (v, x)) vs,
   add_trace (fanout_calls r g w b vs) σ).
Proof.
  intros g. subst g. revert σ.
  induction vs as [|v vs IH]; intros σ.
  - simpl. by rewrite add_trace_nil.
  - rewrite map_cons, mapM_cons_run, bind_run, task_run.
    change (mapM ?f (v :: vs)) with (y ← f v; ys ← mapM f vs; mret (y :: ys)).
    simpl fanout_calls.
    destruct (vitality_of_one _ w b v) as [x|e] eqn:Hv.
    + cbn [mbind res_bind mret res_ret]. rewrite bind_run, IH.
      simpl w_graph. rewrite add_trace_app, Hv.
      by destruct (mapM _ vs).
    + cbn [mbind res_bind]. by rewrite Hv.
Qed.

Lemma fanout_calls_views (r : gref) (g : Graph) (w : option string) (b : num)
    (vs : list nat) :
  Forall (view_event r) (fanout_calls r g w b vs).
Proof.
  induction vs as [|v vs IH]; simpl; [constructor|].
  assert (view_event r (EvWienerIndex (SubgraphView r (others g v)) w))
    by by eexists _, _.
  destruct (vitality_of_one g w b v).
  - apply Forall_app. split; [done|]. by apply Forall_singleton.
  - by apply Forall_singleton.
Qed.

(** A call without [node]: the baseline, the CPU query, the executor and
    then the per-node oracle calls. *)
Lemma all_run (k : nat) (G : pyobj) (w : option string) (wi : option num)
    (n : Z) (σ : world) :
  let g := graph_of G σ in
  closeness_vitality_depth (S (S k)) G None w wi n σ =
    (all_nodes_result g (w_cpus σ) w wi n,
     add_trace (all_nodes_calls (unwrap G) g (w_cpus σ) w wi n) σ).
Proof.
  intros g. subst g. unfold all_nodes_result, all_nodes_calls, graph_of.
  rewrite closeness_vitality_depth_eq.
  rewrite bind_run.
  assert (Hbase : ∀ τ : world, τ = σ →
    match wi with None => nx.wiener_index (unwrap G) w | Some b => mret b end τ =
    (baseline_of (deref (unwrap G) (w_graph σ)) w wi,
     add_trace (if wi is None then [EvWienerIndex (unwrap G) w] else []) σ)).
  { intros τ ->. destruct wi; simpl; [by rewrite add_trace_nil|done]. }
  rewrite (Hbase σ eq_refl). clear Hbase.
  destruct (baseline_of _ w wi) as [b|e]; simpl; [|done].
  run. simpl. rewrite Parallel_run.
  fold (resolved_n_jobs (w_cpus σ) n).
  destruct (decide (resolved_n_jobs (w_cpus σ) n = 0)) as [Hz|Hz].
  { by rewrite add_trace_app. }
  rewrite tasks_run. simpl w_graph.
  unfold vitality_of_all. rewrite !add_trace_app, <- app_assoc. simpl app.
  by destruct (mapM _ (nodes _)).
Qed.

(** ** The oracle and the views *)

Lemma wiener_index_null (g : Graph) (w : option string) :
  nodes g = [] → GraphModel.wiener_index g w = Raise NetworkXPointlessConcept.
Proof.
  intros Hg. unfold GraphModel.wiener_index, GraphModel.is_connected.
  by rewrite Hg.
Qed.

Lemma is_connected_nonnull (g : Graph) (c : bool) :
  GraphModel.is_connected g = Ok c → nodes g ≠ [].
Proof. unfold GraphModel.is_connected. by destruct (nodes g). Qed.

Lemma wiener_index_disconnected (g : Graph) (w : option string) :
  GraphModel.is_connected g = Ok false → GraphModel.wiener_index g w = Ok PInf.
Proof. intros Hc. unfold GraphModel.wiener_index. by rewrite Hc. Qed.

Lemma wiener_index_connected (g : Graph) (w : option string) :
  GraphModel.is_connected g = Ok true →
  ∃ z, GraphModel.wiener_index g w = Ok (Fin z).
Proof.
  intros Hc. unfold GraphModel.wiener_index. rewrite Hc. simpl. by eexists.
Qed.

Lemma wiener_index_nonnull (g : Graph) (w : option string) :
  nodes g ≠ [] → ∃ a, GraphModel.wiener_index g w = Ok a.
Proof.
  intros Hg. unfold GraphModel.wiener_index, GraphModel.is_connected.
  destruct (nodes g) as [|u l] eqn:E; [done|]. simpl.
  destruct (negb _); by eexists.
Qed.

Lemma wiener_index_Raise (g : Graph) (w : option string) (e : exn) :
  GraphModel.wiener_index g w = Raise e →
  nodes g = [] ∧ e = NetworkXPointlessConcept.
Proof.
  intros He. destruct (nodes g) as [|u l] eqn:E.
  - rewrite wiener_index_null in He by done. split; congruence.
  - destruct (wiener_index_nonnull g w) as [a Ha]; [by rewrite E|congruence].
Qed.

Lemma elem_of_others (g : Graph) (v u : nat) :
  u ∈ others g v ↔ u ∈ nodes g ∧ u ≠ v.
Proof.
  unfold others.
  by rewrite elem_of_difference, elem_of_list_to_set, elem_of_singleton.
Qed.

Lemma elem_of_nodes_remaining (g : Graph) (v u : nat) :
  u ∈ nodes (remaining g v) ↔ u ∈ nodes g ∧ u ≠ v.
Proof.
  unfold remaining. simpl. rewrite list_elem_of_filter, elem_of_others.
  tauto.
Qed.





(** A view is never the object it was taken from. *)
Lemma SubgraphView_neq (r : gref) (keep : gset nat) : SubgraphView r keep ≠ r.
Proof.
  revert keep. induction r as [|p IH k]; intros keep; [done|].
  intros [= Hp _]. by apply (IH k).
Qed.

(** ** Dictionaries and the fan-out result *)

Lemma dict_snoc {V} (l : list (nat * V)) (k : nat) (x : V) :
  dict (l ++ [(k, x)]) = <[k := x]> (dict l).
Proof. unfold dict. by rewrite foldl_app. Qed.

Lemma dict_lookup_map {V} (f : nat → V) (vs : list nat) (k : nat) :
  dict (map (λ v, (v, f v)) vs) !! k =
    if decide (k ∈ vs) then Some (f k) else None.
Proof.
  induction vs as [|v vs IH] using rev_ind.
  - destruct (decide (k ∈ [])) as [Hk|_]; [by apply elem_of_nil in Hk|].
    apply lookup_empty.
  - rewrite map_app. simpl map. rewrite dict_snoc.
    destruct (decide (v = k)) as [->|Hne].
    + rewrite lookup_insert_eq, decide_True; [done|].
      apply elem_of_app. right. by left.
    + rewrite lookup_insert_ne, IH by done.
      destruct (decide (k ∈ vs)) as [Hk|Hk].
      * rewrite decide_True; [done|]. apply elem_of_app. by left.
      * rewrite decide_False; [done|].
        rewrite elem_of_app, list_elem_of_singleton. intros [?|Hkv]; [done|by subst].
Qed.

Lemma mapM_pairs_Ok (h : nat → res num) (f : nat → num) (vs : list nat) :
  (∀ v, v ∈ vs → h v = Ok (f v)) →
  mapM (λ v, x ← h v; mret (v, x)) vs = Ok (map (λ v, (v, f v)) vs).
Proof.
  induction vs as [|v vs IH]; intros Hh; [done|].
  simpl. rewrite Hh by set_solver. simpl.
  rewrite IH; [done|]. intros u Hu. apply Hh. set_solver.
Qed.

Lemma mapM_pairs_inv (h : nat → res num) (vs : list nat) (rs : list (nat * num)) :
  mapM (λ v, x ← h v; mret (v, x)) vs = Ok rs →
  ∀ v, v ∈ vs → ∃ x, h v = Ok x.
Proof.
  revert rs. induction vs as [|u vs IH]; intros rs Hrs v Hv; [set_solver|].
  simpl in Hrs. destruct (h u) as [x|e] eqn:Hu; [|done]. simpl in Hrs.
  destruct (mapM _ vs) as [ys|e] eqn:Hys; [|done].
  apply elem_of_cons in Hv as [->|Hv]; [by eexists|]. by eapply IH.
Qed.

Lemma vitality_of_all_Ok (g : Graph) (w : option string) (b : num) :
  (∀ v, v ∈ nodes g → ∃ x, vitality_of_one g w b v = Ok x) →
  vitality_of_all g w b =
    Ok (dict (map (λ v, (v, value_or_nan (vitality_of_one g w b v))) (nodes g))).
Proof.
  intros Hall. unfold vitality_of_all.
  rewrite (mapM_pairs_Ok _ (λ v, value_or_nan (vitality_of_one g w b v))); [done|].
  intros v Hv. destruct (Hall v Hv) as [x ->]. done.
Qed.

Lemma vitality_of_all_inv (g : Graph) (w : option string) (b : num)
    (m : gmap nat num) :
  vitality_of_all g w b = Ok m →
  ∀ v, v ∈ nodes g → ∃ x, vitality_of_one g w b v = Ok x.
Proof.
  unfold vitality_of_all. intros Hm.
  destruct (mapM _ (nodes g)) as [rs|e] eqn:Hrs; [|done].
  by eapply mapM_pairs_inv.
Qed.

(** The mapping has exactly the entries of the nodes, each the
    vitality of that node. *)
Lemma vitality_of_all_lookup (g : Graph) (w : option string) (b : num)
    (m : gmap nat num) (v : nat) (x : num) :
  vitality_of_all g w b = Ok m →
  (m !! v = Some x ↔ v ∈ nodes g ∧ vitality_of_one g w b v = Ok x).
Proof.
  intros Hm. pose proof (vitality_of_all_inv _ _ _ _ Hm) as Hall.
  rewrite (vitality_of_all_Ok _ _ _ Hall) in Hm. injection Hm as <-.
  rewrite dict_lookup_map. destruct (decide (v ∈ nodes g)) as [Hv|Hv].
  - destruct (Hall v Hv) as [y Hy]. rewrite Hy. simpl.
    split; [by intros [= ->]|by intros [_ [= ->]]].
  - split; [done|by intros [? _]].
Qed.


(** ** Reading traces *)

Lemma parallel_requests_views (r : gref) (views tr : list event) :
  Forall (view_event r) views →
  parallel_requests (views ++ tr) = parallel_requests tr.
Proof.
  unfold parallel_requests. induction 1 as [|e views (keep & w & ->) _ IH]; [done|].
  simpl. exact IH.
Qed.


Lemma count_calls_views (r : gref) (w : option string) (views tr : list event) :
  Forall (view_event r) views →
  count_calls (EvWienerIndex r w) (views ++ tr) = count_calls (EvWienerIndex r w) tr.
Proof.
  unfold count_calls. induction 1 as [|e views (keep & w' & ->) _ IH]; [done|].
  simpl. rewrite filter_cons_False; [exact IH|].
  intros [= Hr _]. by apply SubgraphView_neq in Hr.
Qed.

Lemma count_calls_cons_eq (e : event) (tr : list event) :
  count_calls e (e :: tr) = S (count_calls e tr).
Proof. unfold count_calls. by rewrite filter_cons_True. Qed.

Lemma count_calls_cons_ne (e e' : event) (tr : list event) :
  e' ≠ e → count_calls e (e' :: tr) = count_calls e tr.
Proof. intros Hne. unfold count_calls. by rewrite filter_cons_False. Qed.

Lemma resolved_n_jobs_nonzero (c : positive) (n : Z) :
  n ≠ 0 → resolved_n_jobs c n ≠ 0.
Proof. unfold resolved_n_jobs. destruct (decide _); lia. Qed.

(** Every nonzero [n_jobs] gives the same result in all-nodes mode. *)
Lemma n_jobs_irrelevant_when_nonzero (G : pyobj) (w : option string)
    (wi : option num) (n1 n2 : Z) (σ : world) :
  n1 ≠ 0 → n2 ≠ 0 →
  (closeness_vitality G None w wi n1 σ).1 =
  (closeness_vitality G None w wi n2 σ).1.
Proof.
  intros H1 H2. unfold closeness_vitality.
  rewrite !all_run. simpl. unfold all_nodes_result.
  destruct (baseline_of _ w wi) as [b|e]; [|done]. simpl.
  by rewrite !decide_False by by apply resolved_n_jobs_nonzero.
Qed.

Lemma mapM_pairs_Raise (h : nat → res num) (vs : list nat) (e : exn) :
  mapM (λ v, x ← h v; mret (v, x)) vs = Raise e →
  ∃ v, v ∈ vs ∧ h v = Raise e.
Proof.
  induction vs as [|u vs IH]; [done|]. simpl.
  destruct (h u) as [x|e'] eqn:Hu; simpl.
  - destruct (mapM _ vs) as [ys|e'']; [done|]. simpl. intros [= ->].
    destruct IH as (v & Hv & Hhv); [done|]. exists v. split; [by right|done].
  - intros [= ->]. exists u. split; [by left|done].
Qed.

Lemma vitality_of_one_Raise (g : Graph) (w : option string) (b : num)
    (v : nat) (e : exn) :
  vitality_of_one g w b v = Raise e → e = NetworkXPointlessConcept.
Proof.
  unfold vitality_of_one.
  destruct (GraphModel.wiener_index (remaining g v) w) as [a|e'] eqn:Ha; [done|].
  apply wiener_index_Raise in Ha as [_ ->]. by intros [= <-].
Qed.

(** The model never gets stuck: the call depth 2 is enough and every
    task yields a scalar. *)
Lemma closeness_vitality_not_stuck (G : pyobj) (node : option nat)
    (w : option string) (wi : option num) (n : Z) (σ : world) :
  (closeness_vitality G node w wi n σ).1 ≠ Raise Stuck.
Proof.
  assert (Hbase : ∀ g, baseline_of g w wi ≠ Raise Stuck).
  { intros g Hb. destruct wi; [done|]. simpl in Hb.
    by apply wiener_index_Raise in Hb as [_ ?]. }
  assert (Hone : ∀ g b v, Scalar <$> vitality_of_one g w b v ≠ Raise Stuck).
  { intros g b v. destruct (vitality_of_one g w b v) as [x|e] eqn:Hv; [done|].
    apply vitality_of_one_Raise in Hv as ->. done. }
  unfold closeness_vitality. destruct node as [v|].
  - rewrite single_run. specialize (Hbase (graph_of G σ)).
    destruct wi as [b|]; simpl; [apply Hone|]. simpl in Hbase.
    destruct (GraphModel.wiener_index (graph_of G σ) w); simpl; [apply Hone|].
    intros [= ->]. by apply Hbase.
  - rewrite all_run. simpl. unfold all_nodes_result.
    specialize (Hbase (graph_of G σ)).
    destruct (baseline_of _ w wi) as [b|e]; simpl;
      [|intros [= ->]; by apply Hbase].
    destruct (decide _); [done|]. unfold vitality_of_all.
    destruct (mapM _ _) as [rs|e] eqn:Hrs; [done|]. simpl.
    apply mapM_pairs_Raise in Hrs as (v & _ & Hv).
    apply vitality_of_one_Raise in Hv as ->. done.
Qed.

(** Call depth beyond 2 changes nothing. *)
Lemma closeness_vitality_depth_enough (k : nat) (G : pyobj) (node : option nat)
    (w : option string) (wi : option num) (n : Z) (σ : world) :
  closeness_vitality_depth (2 + k) G node w wi n σ =
  closeness_vitality G node w wi n σ.
Proof.
  unfold closeness_vitality. simpl plus. destruct node as [v|].
  - by rewrite !single_run.
  - by rewrite !all_run.
Qed.

(** ** The scenarios of the specification *)

Example cycle4_baseline : GraphModel.wiener_index cycle4 None = Ok (Fin 8).
Proof. by vm_compute. Qed.

Example cycle4_vitality :
  (closeness_vitality (Bare Stored) None None None (-1) (host cycle4)).1 =
    Ok (Mapping (dict [(0, Fin 4); (1, Fin 4); (2, Fin 4); (3, Fin 4)]%nat)).
Proof. by vm_compute. Qed.

Example pair5_vitality :
  (closeness_vitality (Bare Stored) None (Some "weight") None (-1) (host pair5)).1 =
    Ok (Mapping (dict [(0, Fin 5); (1, Fin 5)]%nat)).
Proof. by vm_compute. Qed.

Example star3_vitality :
  (closeness_vitality (Bare Stored) None None None (-1) (host star3)).1 =
    Ok (Mapping (dict [(0, NInf); (1, Fin 5); (2, Fin 5); (3, Fin 5)]%nat)).
Proof. by vm_compute. Qed.

(** * The claims *)









(** C4.  With [n_jobs = 0] the all-nodes call gets as far as the executor
    and is rejected there with [ValueError]; on the star, [n_jobs = 1]
    yields a mapping and [n_jobs = 0] does not. *)
Theorem n_jobs_zero_is_rejected :
  (∀ (G : pyobj) (w : option string) (wi : option num) (σ : world),
     (closeness_vitality G None w wi 0 σ).1 =
       (b ← baseline_of (graph_of G σ) w wi; Raise ValueError))
  ∧ ((closeness_vitality (Bare Stored) None None None 0 (host star3)).1
       = Raise ValueError
     ∧ ∃ m, (closeness_vitality (Bare Stored) None None None 1 (host star3)).1
              = Ok (Mapping m)).
Proof.
  split; [|split].
  - intros G w wi σ. unfold closeness_vitality. rewrite all_run. simpl.
    unfold all_nodes_result. by destruct (baseline_of _ w wi).
  - by vm_compute.
  - eexists. by vm_compute.
Qed.

(** C5 (amended).  When the magnitude of [n_jobs] exceeds the CPU count,
    the executor is called exactly once, with the positive CPU count,
    whatever the sign of the request. *)
Theorem oversized_n_jobs_becomes_cpu_count (G : pyobj) (w : option string)
    (wi : option num) (n : Z) (σ : world) (b : num) :
  Z.abs n > Z.pos (w_cpus σ) →
  baseline_of (graph_of G σ) w wi = Ok b →
  parallel_requests (w_trace (closeness_vitality G None w wi n σ).2) =
    Z.pos (w_cpus σ) :: parallel_requests (w_trace σ).
Proof.
  intros Hn Hb. unfold closeness_vitality. rewrite all_run. simpl.
  unfold all_nodes_calls. rewrite Hb.
  assert (Hres : resolved_n_jobs (w_cpus σ) n = Z.pos (w_cpus σ)).
  { unfold resolved_n_jobs. by rewrite decide_True. }
  rewrite Hres, decide_False by lia.
  rewrite <- app_assoc.
  rewrite (parallel_requests_views (unwrap G)) by apply fanout_calls_views.
  simpl. by destruct wi.
Qed.

Lemma oversized_n_jobs_becomes_cpu_count_witness :
  parallel_requests
    (w_trace (closeness_vitality (Bare Stored) None None None (-100)
                (host star3)).2) = 4 :: parallel_requests (w_trace (host star3)).
Proof.
  apply (oversized_n_jobs_becomes_cpu_count (Bare Stored) None None (-100)
           (host star3) (Fin 9)).
  - simpl. lia.
  - by vm_compute.
Defined.

(** C5, as stated, fails: with 4 CPUs a request of -100 reaches the
    executor as 4, not as -4. *)
Lemma oversized_n_jobs_becomes_cpu_count_counterexample :
  Z.abs (-100) > Z.pos (w_cpus (host star3)) ∧
  resolved_n_jobs (w_cpus (host star3)) (-100) = 4 ∧
  parallel_requests
    (w_trace (closeness_vitality (Bare Stored) None None None (-100)
                (host star3)).2) ≠ [-4].
Proof. by vm_compute. Qed.

(** C6.  Supplying the true Wiener index gives the same result as
    omitting it, in both modes; when it is omitted, the oracle is called
    on [G] itself exactly once during the call, and every entry of the
    mapping is that one value minus the total distance of the graph
    without the entry's node. *)
Theorem supplied_true_baseline_is_equivalent (G : pyobj) (node : option nat)
    (w : option string) (n : Z) (σ : world) (b : num) :
  let g := graph_of G σ in
  let σ' := (closeness_vitality G node w None n σ).2 in
  let baseline_call := EvWienerIndex (unwrap G) w in
  GraphModel.wiener_index g w = Ok b →
  (closeness_vitality G node w (Some b) n σ).1 =
    (closeness_vitality G node w None n σ).1
  ∧ count_calls baseline_call (w_trace σ') =
      S (count_calls baseline_call (w_trace σ))
  ∧ (∀ m v x, (closeness_vitality G None w None n σ).1 = Ok (Mapping m) →
       m !! v = Some x → vitality_of_one g w b v = Ok x).
Proof.
  intros g σ' baseline_call Hb. subst σ' baseline_call.
  unfold closeness_vitality. split; [|split].
  - destruct node as [v|].
    + rewrite !single_run. fold g. by rewrite Hb.
    + rewrite !all_run. fold g. simpl. unfold all_nodes_result. simpl.
      by rewrite Hb.
  - destruct node as [v|].
    + rewrite single_run. fold g. rewrite Hb. simpl.
      rewrite count_calls_cons_ne, count_calls_cons_eq; [done|].
      intros [= Hr]. by apply SubgraphView_neq in Hr.
    + rewrite all_run. fold g. simpl. unfold all_nodes_calls. simpl baseline_of.
      rewrite Hb. rewrite <- app_assoc.
      assert (Hviews : Forall (view_event (unwrap G))
        (if decide (resolved_n_jobs (w_cpus σ) n = 0) then []
         else fanout_calls (unwrap G) g w b (nodes g))).
      { destruct (decide _); [constructor|apply fanout_calls_views]. }
      rewrite (count_calls_views _ _ _ _ Hviews). simpl.
      do 2 (rewrite count_calls_cons_ne by done).
      by rewrite count_calls_cons_eq.
  - intros m v x. rewrite all_run. fold g. simpl. unfold all_nodes_result.
    simpl baseline_of. rewrite Hb. simpl. destruct (decide _); [done|].
    destruct (vitality_of_all g w b) as [m'|e] eqn:Hm; [|done].
    simpl. intros [= <-] Hx.
    by apply (vitality_of_all_lookup g w b _ v x Hm) in Hx as [_ ?].
Qed.

Lemma supplied_true_baseline_is_equivalent_witness :
  (closeness_vitality (Bare Stored) None (Some "weight") (Some (Fin 5)) (-1)
     (host pair5)).1 =
  (closeness_vitality (Bare Stored) None (Some "weight") None (-1)
     (host pair5)).1
  ∧ count_calls (EvWienerIndex Stored (Some "weight"))
      (w_trace (closeness_vitality (Bare Stored) None (Some "weight") None (-1)
                  (host pair5)).2) = 1%nat.
Proof.
  destruct (supplied_true_baseline_is_equivalent (Bare Stored) None
              (Some "weight") (-1) (host pair5) (Fin 5)) as (Hres & Hcount & _).
  - by vm_compute.
  - split; [exact Hres|exact Hcount].
Defined.

(** C7.  The caller's graph is the same after any call as before it. *)
Theorem caller_graph_unchanged (G : pyobj) (node : option nat)
    (w : option string) (wi : option num) (n : Z) (σ : world) :
  w_graph (closeness_vitality G node w wi n σ).2 = w_graph σ.
Proof.
  unfold closeness_vitality. destruct node as [v|].
  - rewrite single_run. destruct wi; [done|].
    by destruct (GraphModel.wiener_index _ _).
  - by rewrite all_run.
Qed.

(** By contrast, removing the node in place would change the graph. *)
Example remove_node_changes_graph :
  w_graph (nx.remove_node 0 (host star3)).2 ≠ w_graph (host star3).
Proof. by vm_compute. Qed.

(** C8.  A wrapper behaves as the graph it exposes: same result, same
    calls. *)
Theorem wrapper_is_unwrapped (r : gref) (node : option nat)
    (w : option string) (wi : option num) (n : Z) :
  closeness_vitality (Wrapped r) node w wi n =
  closeness_vitality (Bare r) node w wi n.
Proof.
  unfold closeness_vitality. by rewrite !closeness_vitality_depth_eq.
Qed.

(** C9.  With [node] given, the outcome (result and calls made) is the
    same for any two [n_jobs], and neither [os.cpu_count] nor the executor
    is called. *)
Theorem single_node_ignores_n_jobs (G : pyobj) (v : nat) (w : option string)
    (wi : option num) (n1 n2 : Z) (σ : world) :
  closeness_vitality G (Some v) w wi n1 σ =
    closeness_vitality G (Some v) w wi n2 σ
  ∧ executor_events (w_trace (closeness_vitality G (Some v) w wi n1 σ).2) =
      executor_events (w_trace σ).
Proof.
  unfold closeness_vitality. rewrite !single_run. split; [done|].
  destruct wi as [b|]; [done|].
  by destruct (GraphModel.wiener_index _ _).
Qed.




(** * Further properties of [closeness_vitality] *)

(** ** Auxiliary facts *)

Lemma all_nodes_Ok_inv (G : pyobj) (w : option string) (wi : option num)
    (n : Z) (σ : world) (m : gmap nat num) :
  (closeness_vitality G None w wi n σ).1 = Ok (Mapping m) →
  ∃ b, baseline_of (graph_of G σ) w wi = Ok b
       ∧ resolved_n_jobs (w_cpus σ) n ≠ 0
       ∧ vitality_of_all (graph_of G σ) w b = Ok m.
Proof.
  unfold closeness_vitality. rewrite all_run. simpl. unfold all_nodes_result.
  destruct (baseline_of _ w wi) as [b|e]; [|done]. simpl.
  destruct (decide _) as [|Hn]; [done|].
  destruct (vitality_of_all _ w b) as [m'|e] eqn:Hm; [|done]. simpl.
  intros [= ->]. exists b. split; [done|]. split; [done|exact Hm].
Qed.

Lemma wiener_index_range (g : Graph) (w : option string) (a : num) :
  GraphModel.wiener_index g w = Ok a → a = PInf ∨ ∃ z, a = Fin z.
Proof.
  unfold GraphModel.wiener_index.
  destruct (GraphModel.is_connected g) as [c|e]; [|done]. simpl.
  destruct c; simpl; intros [= <-]; [right; by eexists|by left].
Qed.

Lemma is_connected_total (g : Graph) :
  nodes g ≠ [] → ∃ c, GraphModel.is_connected g = Ok c.
Proof.
  unfold GraphModel.is_connected. destruct (nodes g); [done|]. by eexists.
Qed.

Lemma vitality_of_one_Ok (g : Graph) (w : option string) (b : num) (v : nat) :
  nodes (remaining g v) ≠ [] → ∃ x, vitality_of_one g w b v = Ok x.
Proof.
  intros Hne. unfold vitality_of_one.
  destruct (wiener_index_nonnull (remaining g v) w Hne) as [a ->]. by eexists.
Qed.

Lemma remaining_nonnull (g : Graph) (v u : nat) :
  u ∈ nodes g → u ≠ v → nodes (remaining g v) ≠ [].
Proof.
  intros Hu Huv E. assert (u ∈ nodes (remaining g v)) as Hin
    by by apply elem_of_nodes_remaining.
  rewrite E in Hin. by apply elem_of_nil in Hin.
Qed.

Lemma remaining_null (g : Graph) (v : nat) :
  (∀ u, u ∈ nodes g → u = v) → nodes (remaining g v) = [].
Proof.
  intros Hall. destruct (nodes (remaining g v)) as [|t l] eqn:E; [done|].
  assert (t ∈ nodes (remaining g v)) as Hin by (rewrite E; left).
  apply elem_of_nodes_remaining in Hin as [Ht Hne]. by apply Hall in Ht.
Qed.

Lemma fanout_calls_length (r : gref) (g : Graph) (w : option string)
    (b : num) (vs : list nat) :
  (∀ v, v ∈ vs → ∃ x, vitality_of_one g w b v = Ok x) →
  length (fanout_calls r g w b vs) = length vs.
Proof.
  induction vs as [|v vs IH]; intros Hall; [done|]. simpl.
  destruct (Hall v) as [x ->]; [left|].
  rewrite length_app, IH; [simpl; lia|].
  intros u Hu. apply Hall. by right.
Qed.

Lemma fanout_calls_weights (r : gref) (g : Graph) (w : option string)
    (b : num) (vs : list nat) :
  oracle_weights (fanout_calls r g w b vs) =
    replicate (length (fanout_calls r g w b vs)) w.
Proof.
  unfold oracle_weights. induction vs as [|v vs IH]; [done|]. simpl.
  destruct (vitality_of_one g w b v); [|done].
  rewrite omap_app, IH, length_app. simpl.
  by rewrite Nat.add_1_r, replicate_S_end.
Qed.


(** The result of a call depends on the world only through its graph and
    its CPU count, and a call changes nothing but the trace. *)
Lemma result_ignores_trace (G : pyobj) (node : option nat)
    (w : option string) (wi : option num) (n : Z) (tr : list event)
    (σ : world) :
  (closeness_vitality G node w wi n (add_trace tr σ)).1 =
  (closeness_vitality G node w wi n σ).1.
Proof.
  unfold closeness_vitality. destruct node as [v|].
  - rewrite !single_run. unfold graph_of. simpl w_graph.
    destruct wi as [b|]; [done|].
    by destruct (GraphModel.wiener_index _ _).
  - by rewrite !all_run.
Qed.

Lemma world_after_call (G : pyobj) (node : option nat) (w : option string)
    (wi : option num) (n : Z) (σ : world) :
  ∃ tr, (closeness_vitality G node w wi n σ).2 = add_trace tr σ.
Proof.
  unfold closeness_vitality. destruct node as [v|].
  - rewrite single_run. destruct wi as [b|]; [by eexists|].
    destruct (GraphModel.wiener_index _ _); by eexists.
  - rewrite all_run. by eexists.
Qed.

(** ** The returned mapping *)

(** X1.  When the all-nodes call returns a mapping, its keys are exactly
    the nodes of [G]. *)
Theorem mapping_keys_are_the_nodes (G : pyobj) (w : option string)
    (wi : option num) (n : Z) (σ : world) (m : gmap nat num) :
  (closeness_vitality G None w wi n σ).1 = Ok (Mapping m) →
  dom m = list_to_set (nodes (graph_of G σ)).
Proof.
  intros Hm. apply all_nodes_Ok_inv in Hm as (b & _ & _ & Hm).
  apply set_eq. intros v. rewrite elem_of_dom, elem_of_list_to_set. split.
  - intros [x Hx].
    by apply (vitality_of_all_lookup _ _ _ _ v x Hm) in Hx as [? _].
  - intros Hv. destruct (vitality_of_all_inv _ _ _ _ Hm v Hv) as [x Hx].
    exists x. by apply (vitality_of_all_lookup _ _ _ _ v x Hm).
Qed.

Lemma mapping_keys_are_the_nodes_witness :
  dom (dict [(0, NInf); (1, Fin 5); (2, Fin 5); (3, Fin 5)]%nat) =
    list_to_set (nodes (graph_of (Bare Stored) (host star3))).
Proof.
  apply (mapping_keys_are_the_nodes (Bare Stored) None None (-1) (host star3)).
  by vm_compute.
Defined.

(** X2.  On a connected graph, the entries of the mapping that are
    negative infinity are exactly the nodes whose removal leaves a
    disconnected graph; every other entry is finite. *)
Theorem infinite_entries_are_the_cut_nodes (G : pyobj) (w : option string)
    (n : Z) (σ : world) (m : gmap nat num) (v : nat) (x : num) :
  let g := graph_of G σ in
  GraphModel.is_connected g = Ok true →
  (closeness_vitality G None w None n σ).1 = Ok (Mapping m) →
  m !! v = Some x →
  (x = NInf ∧ GraphModel.is_connected (remaining g v) = Ok false)
  ∨ (is_finite x = true ∧ GraphModel.is_connected (remaining g v) = Ok true).
Proof.
  intros g Hg Hm Hx. apply all_nodes_Ok_inv in Hm as (b & Hb & _ & Hm).
  fold g in Hb, Hm. simpl in Hb.
  destruct (wiener_index_connected g w Hg) as [z Hz].
  rewrite Hz in Hb. injection Hb as <-.
  apply (vitality_of_all_lookup _ _ _ _ v x Hm) in Hx as [_ Hx].
  unfold vitality_of_one in Hx.
  destruct (nodes (remaining g v)) as [|t l] eqn:E.
  { by rewrite wiener_index_null in Hx. }
  destruct (is_connected_total (remaining g v)) as [c Hc]; [by rewrite E|].
  destruct c.
  - right. destruct (wiener_index_connected _ w Hc) as [a Ha].
    rewrite Ha in Hx. simpl in Hx. injection Hx as <-. done.
  - left. rewrite (wiener_index_disconnected _ w Hc) in Hx.
    simpl in Hx. injection Hx as <-. done.
Qed.

Lemma infinite_entries_are_the_cut_nodes_witness :
  (NInf = NInf ∧ GraphModel.is_connected (remaining star3 0) = Ok false)
  ∨ (is_finite NInf = true
     ∧ GraphModel.is_connected (remaining star3 0) = Ok true).
Proof.
  apply (infinite_entries_are_the_cut_nodes (Bare Stored) None (-1)
           (host star3)
           (dict [(0, NInf); (1, Fin 5); (2, Fin 5); (3, Fin 5)]%nat) 0%nat NInf);
    by vm_compute.
Defined.

(** X3.  When [G] is not connected and the baseline is computed by the
    call, no result is finite or negative infinity: the single-node result
    and every entry of the mapping are positive infinity or NaN. *)
Theorem disconnected_graph_gives_inf_or_nan (G : pyobj) (w : option string)
    (n : Z) (σ : world) :
  let g := graph_of G σ in
  GraphModel.is_connected g = Ok false →
  (∀ v x, (closeness_vitality G (Some v) w None n σ).1 = Ok (Scalar x) →
     x = PInf ∨ x = NaN)
  ∧ (∀ m v x, (closeness_vitality G None w None n σ).1 = Ok (Mapping m) →
       m !! v = Some x → x = PInf ∨ x = NaN).
Proof.
  intros g Hg.
  assert (Hone : ∀ v x, vitality_of_one g w PInf v = Ok x → x = PInf ∨ x = NaN).
  { intros v x. unfold vitality_of_one.
    destruct (GraphModel.wiener_index (remaining g v) w) as [a|e] eqn:Ha; [|done].
    simpl. intros [= <-].
    destruct (wiener_index_range _ _ _ Ha) as [->|[z ->]]; [by right|by left]. }
  pose proof (wiener_index_disconnected g w Hg) as Hb. split.
  - intros v x. unfold closeness_vitality. rewrite single_run. fold g.
    rewrite Hb. simpl.
    destruct (vitality_of_one g w PInf v) as [y|e] eqn:Hy; [|done].
    simpl. intros [= <-]. by apply (Hone v).
  - intros m v x Hm Hx. apply all_nodes_Ok_inv in Hm as (b & Hb' & _ & Hm).
    fold g in Hb', Hm. simpl in Hb'. rewrite Hb in Hb'. injection Hb' as <-.
    apply (vitality_of_all_lookup _ _ _ _ v x Hm) in Hx as [_ Hx].
    by apply (Hone v).
Qed.

Lemma disconnected_graph_gives_inf_or_nan_witness :
  NaN = PInf ∨ NaN = NaN.
Proof.
  destruct (disconnected_graph_gives_inf_or_nan (Bare Stored) None (-1)
              (host path3_plus_isolated)) as [Hone _].
  - by vm_compute.
  - apply (Hone 1%nat NaN). by vm_compute.
Defined.

(** ** Failures *)

(** X4.  [NetworkXPointlessConcept] is confined to graphs with fewer
    than two nodes: on a graph with at least two distinct nodes no call
    raises it, in either mode, for any node argument, baseline and
    [n_jobs]. *)
Theorem two_nodes_exclude_null_graph_error (G : pyobj) (node : option nat)
    (w : option string) (wi : option num) (n : Z) (σ : world) (s t : nat) :
  let g := graph_of G σ in
  s ∈ nodes g → t ∈ nodes g → s ≠ t →
  (closeness_vitality G node w wi n σ).1 ≠ Raise NetworkXPointlessConcept.
Proof.
  intros g Hs Ht Hst.
  assert (Hbase : ∃ b, baseline_of g w wi = Ok b).
  { destruct wi as [b|]; [by eexists|]. simpl.
    apply wiener_index_nonnull. intros E. rewrite E in Hs.
    by apply elem_of_nil in Hs. }
  destruct Hbase as [b Hb].
  assert (Hone : ∀ v, ∃ x, vitality_of_one g w b v = Ok x).
  { intros v. apply vitality_of_one_Ok. destruct (decide (s = v)) as [<-|Hsv].
    - by apply (remaining_nonnull g s t).
    - by apply (remaining_nonnull g v s). }
  unfold closeness_vitality. destruct node as [v|].
  - rewrite single_run. fold g. destruct (Hone v) as [x Hx].
    destruct wi as [b'|]; simpl in *.
    + injection Hb as ->. by rewrite Hx.
    + rewrite Hb. simpl. by rewrite Hx.
  - rewrite all_run. fold g. simpl. unfold all_nodes_result.
    rewrite Hb. simpl. destruct (decide _); [done|].
    by rewrite (vitality_of_all_Ok g w b) by (intros v _; apply Hone).
Qed.

Lemma two_nodes_exclude_null_graph_error_witness :
  (closeness_vitality (Bare Stored) None (Some "weight") None 0
     (host pair5)).1 ≠ Raise NetworkXPointlessConcept.
Proof.
  apply (two_nodes_exclude_null_graph_error (Bare Stored) None (Some "weight")
           None 0 (host pair5) 0%nat 1%nat).
  - vm_compute. left.
  - vm_compute. right. left.
  - lia.
Defined.

(** X5.  On a graph with a single node, removing that node leaves the
    null graph: the single-node call for it and the all-nodes call (for a
    nonzero [n_jobs]) both raise [NetworkXPointlessConcept]. *)
Theorem one_node_graph_raises (G : pyobj) (w : option string)
    (wi : option num) (n : Z) (σ : world) (v : nat) :
  nodes (graph_of G σ) = [v] →
  (closeness_vitality G (Some v) w wi n σ).1 = Raise NetworkXPointlessConcept
  ∧ (n ≠ 0 →
     (closeness_vitality G None w wi n σ).1 = Raise NetworkXPointlessConcept).
Proof.
  intros Hg. set (g := graph_of G σ) in *.
  assert (Hbase : ∃ b, baseline_of g w wi = Ok b).
  { destruct wi as [b|]; [by eexists|]. simpl.
    apply wiener_index_nonnull. by rewrite Hg. }
  destruct Hbase as [b Hb].
  assert (Hone : ∀ b', vitality_of_one g w b' v = Raise NetworkXPointlessConcept).
  { intros b'. unfold vitality_of_one. rewrite wiener_index_null; [done|].
    apply remaining_null. intros u. rewrite Hg.
    by intros ->%list_elem_of_singleton. }
  unfold closeness_vitality. split.
  - rewrite single_run. fold g. destruct wi as [b'|]; simpl in *.
    + by rewrite Hone.
    + rewrite Hb. simpl. by rewrite Hone.
  - intros Hn. rewrite all_run. fold g. simpl. unfold all_nodes_result.
    rewrite Hb. simpl.
    rewrite decide_False by by apply resolved_n_jobs_nonzero.
    unfold vitality_of_all. rewrite Hg. simpl. by rewrite Hone.
Qed.

Lemma one_node_graph_raises_witness :
  (closeness_vitality (Bare Stored) (Some 0%nat) None None (-1) (host single)).1
    = Raise NetworkXPointlessConcept
  ∧ (closeness_vitality (Bare Stored) None None None (-1) (host single)).1
      = Raise NetworkXPointlessConcept.
Proof.
  destruct (one_node_graph_raises (Bare Stored) None None (-1) (host single)
              0%nat) as [Hone Hall].
  - by vm_compute.
  - split; [exact Hone|]. apply Hall. lia.
Defined.

(** X6.  On the null graph: without a baseline, either mode raises
    [NetworkXPointlessConcept] at the baseline computation and makes no
    other call; with a baseline supplied, the all-nodes call returns the
    empty mapping (for a nonzero [n_jobs]). *)
Theorem null_graph_behaviour (G : pyobj) (node : option nat)
    (w : option string) (n : Z) (σ : world) (b : num) :
  nodes (graph_of G σ) = [] →
  closeness_vitality G node w None n σ =
    (Raise NetworkXPointlessConcept, add_trace [EvWienerIndex (unwrap G) w] σ)
  ∧ (n ≠ 0 →
     (closeness_vitality G None w (Some b) n σ).1 = Ok (Mapping ∅)).
Proof.
  intros Hg. set (g := graph_of G σ) in *. unfold closeness_vitality. split.
  - destruct node as [v|].
    + rewrite single_run. fold g. by rewrite wiener_index_null.
    + rewrite all_run. fold g. unfold all_nodes_result, all_nodes_calls.
      simpl. by rewrite wiener_index_null.
  - intros Hn. rewrite all_run. fold g. simpl. unfold all_nodes_result. simpl.
    rewrite decide_False by by apply resolved_n_jobs_nonzero.
    unfold vitality_of_all. by rewrite Hg.
Qed.

Lemma null_graph_behaviour_witness :
  closeness_vitality (Bare Stored) None None None (-1) (host null_graph) =
    (Raise NetworkXPointlessConcept,
     add_trace [EvWienerIndex Stored None] (host null_graph))
  ∧ (closeness_vitality (Bare Stored) None None (Some (Fin 0)) (-1)
       (host null_graph)).1 = Ok (Mapping ∅).
Proof.
  destruct (null_graph_behaviour (Bare Stored) None None (-1) (host null_graph)
              (Fin 0)) as [Hraise Hempty].
  - by vm_compute.
  - split; [exact Hraise|]. apply Hempty. lia.
Defined.

(** ** Calls made to the collaborators *)



(** X9.  With a baseline supplied, the oracle is never called on [G]
    itself, in either mode and whatever the outcome. *)
Theorem supplied_baseline_skips_oracle (G : pyobj) (node : option nat)
    (w w' : option string) (b : num) (n : Z) (σ : world) :
  count_calls (EvWienerIndex (unwrap G) w')
    (w_trace (closeness_vitality G node w (Some b) n σ).2) =
  count_calls (EvWienerIndex (unwrap G) w') (w_trace σ).
Proof.
  unfold closeness_vitality. destruct node as [v|].
  - rewrite single_run. simpl. rewrite count_calls_cons_ne; [done|].
    intros [= Hr _]. by apply SubgraphView_neq in Hr.
  - rewrite all_run. simpl. unfold all_nodes_calls. simpl.
    rewrite <- app_assoc.
    assert (Hviews : Forall (view_event (unwrap G))
      (if decide (resolved_n_jobs (w_cpus σ) n = 0) then []
       else fanout_calls (unwrap G) (graph_of G σ) w b (nodes (graph_of G σ)))).
    { destruct (decide _); [constructor|apply fanout_calls_views]. }
    rewrite (count_calls_views _ _ _ _ Hviews). simpl.
    by do 2 (rewrite count_calls_cons_ne by done).
Qed.

(** X10.  When the all-nodes call returns a mapping, it has called the
    oracle once per node of [G], plus once for the baseline when none was
    supplied. *)
Theorem one_oracle_call_per_node (G : pyobj) (w : option string)
    (wi : option num) (n : Z) (σ : world) (m : gmap nat num) :
  (closeness_vitality G None w wi n σ).1 = Ok (Mapping m) →
  oracle_calls (w_trace (closeness_vitality G None w wi n σ).2) =
    (length (nodes (graph_of G σ)) + (if wi is None then 1 else 0)
     + oracle_calls (w_trace σ))%nat.
Proof.
  intros Hm. apply all_nodes_Ok_inv in Hm as (b & Hb & Hn & Hm).
  unfold closeness_vitality. rewrite all_run. simpl.
  unfold all_nodes_calls. rewrite Hb. rewrite decide_False by done.
  unfold oracle_calls, oracle_weights.
  rewrite <- app_assoc, omap_app, length_app.
  fold (oracle_weights (fanout_calls (unwrap G) (graph_of G σ) w b
                          (nodes (graph_of G σ)))).
  rewrite fanout_calls_weights, length_replicate, fanout_calls_length
    by by apply (vitality_of_all_inv _ _ _ _ Hm).
  rewrite omap_app, length_app.
  generalize (length (omap (λ e, match e with
                                 | EvWienerIndex _ w0 => Some w0
                                 | _ => None
                                 end) (w_trace σ))).
  intros c. destruct wi; simpl; lia.
Qed.

Lemma one_oracle_call_per_node_witness :
  oracle_calls
    (w_trace (closeness_vitality (Bare Stored) None None None (-1)
                (host cycle4)).2) =
    (length (nodes (graph_of (Bare Stored) (host cycle4))) + 1
     + oracle_calls (w_trace (host cycle4)))%nat.
Proof.
  apply (one_oracle_call_per_node (Bare Stored) None None (-1) (host cycle4)
           (dict [(0, Fin 4); (1, Fin 4); (2, Fin 4); (3, Fin 4)]%nat)).
  by vm_compute.
Defined.

(** X11.  Every oracle call made during a call, for the baseline and for
    each node, carries the weight selector the call was given. *)
Theorem weight_selector_is_threaded (G : pyobj) (node : option nat)
    (w : option string) (wi : option num) (n : Z) (σ : world) :
  ∃ k, oracle_weights (w_trace (closeness_vitality G node w wi n σ).2) =
         replicate k w ++ oracle_weights (w_trace σ).
Proof.
  unfold closeness_vitality. destruct node as [v|].
  - rewrite single_run. destruct wi as [b|]; [by exists 1%nat|].
    destruct (GraphModel.wiener_index _ _); [by exists 2%nat|by exists 1%nat].
  - rewrite all_run. simpl. unfold all_nodes_calls.
    set (g := graph_of G σ).
    assert (Hbase : ∃ k, oracle_weights
        ((if wi is None then [EvWienerIndex (unwrap G) w] else []) ++ w_trace σ) =
        replicate k w ++ oracle_weights (w_trace σ)).
    { destruct wi; [by exists 0%nat|by exists 1%nat]. }
    destruct Hbase as [k Hk].
    destruct (baseline_of g w wi) as [b|e]; [|by exists k].
    rewrite <- app_assoc. unfold oracle_weights at 1. rewrite omap_app.
    destruct (decide _).
    + exists k. exact Hk.
    + fold (oracle_weights (fanout_calls (unwrap G) g w b (nodes g))).
      rewrite fanout_calls_weights.
      exists (length (fanout_calls (unwrap G) g w b (nodes g)) + k)%nat.
      rewrite replicate_add, <- app_assoc. f_equal. exact Hk.
Qed.

(** ** Composition *)

(** X12.  Calls do not interfere: the result of a call made after any
    other call is the result it would have given before it.  In
    particular a repeated call returns the same result. *)
Theorem calls_do_not_interfere (G1 G2 : pyobj) (node1 node2 : option nat)
    (w1 w2 : option string) (wi1 wi2 : option num) (n1 n2 : Z) (σ : world) :
  (closeness_vitality G2 node2 w2 wi2 n2
     (closeness_vitality G1 node1 w1 wi1 n1 σ).2).1 =
  (closeness_vitality G2 node2 w2 wi2 n2 σ).1.
Proof.
  destruct (world_after_call G1 node1 w1 wi1 n1 σ) as [tr ->].
  apply result_ignores_trace.
Qed.

(** X13.  The self-call goes one level deep: with any larger call depth
    the outcome is the same, and the depth bound is never what makes a
    call fail. *)
Theorem self_call_is_one_level_deep (k : nat) (G : pyobj)
    (node : option nat) (w : option string) (wi : option num) (n : Z)
    (σ : world) :
  closeness_vitality_depth (2 + k) G node w wi n σ =
    closeness_vitality G node w wi n σ
  ∧ (closeness_vitality G node w wi n σ).1 ≠ Raise Stuck.
Proof.
  split; [apply closeness_vitality_depth_enough|].
  apply closeness_vitality_not_stuck.
Qed.
